(** * Cross-page selection model of [src/App.tsx]

    A shallow embedding of the React component [App]: its state cells
    ([useState]/[useRef]), its event handlers, the auto-select effect and
    the asynchronous page loader, followed by the properties of the
    selection model that hold (or fail) on that code. *)

From Stdlib Require Import ZArith List Bool Ascii String Lia.
From stdpp Require Import base numbers option list gmap sets strings.

Local Open Scope Z_scope.

(** ** The fragment of JavaScript the component relies on *)

Module Js.

(** A JavaScript number as the component meets it: an integer, or [NaN]
    (the result of [parseInt] on text without a leading digit sequence).
    Negative zero behaves like zero in every test the component makes and
    is identified with it. *)
Inductive number : Type :=
| NaN
| Num (z : Z).

(** [!n] is true for [NaN] and for zero. *)
Definition truthy (n : number) : bool :=
  match n with
  | NaN => false
  | Num z => negb (z =? 0)
  end.

(** [a >= n] for an integer [a]; every comparison with [NaN] is false. *)
Definition ge (a : Z) (n : number) : bool :=
  match n with
  | NaN => false
  | Num z => z <=? a
  end.

(** [s || d] on strings: the empty string and a missing value are falsy. *)
Definition or_default (s : option string) (d : string) : string :=
  match s with
  | Some EmptyString | None => d
  | Some v => v
  end.

(** White space skipped by [parseInt]; the value of an [<input>] is ASCII. *)
Definition isWhiteSpace (c : ascii) : bool :=
  let n := nat_of_ascii c in
  ((9 <=? n)%nat && (n <=? 13)%nat) || (n =? 32)%nat.

Definition digit (c : ascii) : option Z :=
  let n := nat_of_ascii c in
  if ((48 <=? n)%nat && (n <=? 57)%nat)%bool then Some (Z.of_nat (n - 48)) else None.

Fixpoint trimStart (s : string) : string :=
  match s with
  | String c rest => if isWhiteSpace c then trimStart rest else s
  | EmptyString => s
  end.

(** The longest prefix of decimal digits, read as a number; [None] when the
    prefix is empty. *)
Fixpoint digits (acc : option Z) (s : string) : option Z :=
  match s with
  | String c rest =>
      match digit c with
      | Some d => digits (Some (10 * default 0 acc + d)) rest
      | None => acc
      end
  | EmptyString => acc
  end.

(** [parseInt(s, 10)]. *)
Definition parseInt (s : string) : number :=
  let t := trimStart s in
  let '(sign, body) :=
    match t with
    | String "-" rest => (-1, rest)
    | String "+" rest => (1, rest)
    | _ => (1, t)
    end in
  match digits None body with
  | Some v => Num (sign * v)
  | None => NaN
  end.

End Js.

(** ** The component *)

Module App.

Record ArtworkData : Type := {
  id : Z;
  title : string;
  artist_display : string;
}.

(** One element of [data.data] in a reply of the artworks API, before
    [loadArtworks] fills in the defaults. *)
Record RawArtwork : Type := {
  raw_id : Z;
  raw_title : option string;
  raw_artist_display : option string;
}.

(** The parsed reply: [data.data], and [data.pagination.total] if present. *)
Record Reply : Type := {
  data : list RawArtwork;
  pagination_total : option Z;
}.

(** The state cells of [App]. *)
Record State : Type := {
  artworks : list ArtworkData;
  isLoading : bool;
  currentPage : Z;
  selectedCount : Js.number;
  selectedItems : gset Z;
  unselectedItems : gset Z;
  totalItems : Z;
  itemsCache : gmap Z ArtworkData;
}.

Definition setArtworks (v : list ArtworkData) (s : State) : State :=
  {| artworks := v; isLoading := isLoading s; currentPage := currentPage s;
     selectedCount := selectedCount s; selectedItems := selectedItems s;
     unselectedItems := unselectedItems s; totalItems := totalItems s;
     itemsCache := itemsCache s |}.

Definition setIsLoading (v : bool) (s : State) : State :=
  {| artworks := artworks s; isLoading := v; currentPage := currentPage s;
     selectedCount := selectedCount s; selectedItems := selectedItems s;
     unselectedItems := unselectedItems s; totalItems := totalItems s;
     itemsCache := itemsCache s |}.

Definition setCurrentPage (v : Z) (s : State) : State :=
  {| artworks := artworks s; isLoading := isLoading s; currentPage := v;
     selectedCount := selectedCount s; selectedItems := selectedItems s;
     unselectedItems := unselectedItems s; totalItems := totalItems s;
     itemsCache := itemsCache s |}.

Definition setSelectedCount (v : Js.number) (s : State) : State :=
  {| artworks := artworks s; isLoading := isLoading s; currentPage := currentPage s;
     selectedCount := v; selectedItems := selectedItems s;
     unselectedItems := unselectedItems s; totalItems := totalItems s;
     itemsCache := itemsCache s |}.

Definition setSelectedItems (v : gset Z) (s : State) : State :=
  {| artworks := artworks s; isLoading := isLoading s; currentPage := currentPage s;
     selectedCount := selectedCount s; selectedItems := v;
     unselectedItems := unselectedItems s; totalItems := totalItems s;
     itemsCache := itemsCache s |}.

Definition setUnselectedItems (v : gset Z) (s : State) : State :=
  {| artworks := artworks s; isLoading := isLoading s; currentPage := currentPage s;
     selectedCount := selectedCount s; selectedItems := selectedItems s;
     unselectedItems := v; totalItems := totalItems s;
     itemsCache := itemsCache s |}.

Definition setTotalItems (v : Z) (s : State) : State :=
  {| artworks := artworks s; isLoading := isLoading s; currentPage := currentPage s;
     selectedCount := selectedCount s; selectedItems := selectedItems s;
     unselectedItems := unselectedItems s; totalItems := v;
     itemsCache := itemsCache s |}.

Definition setItemsCache (v : gmap Z ArtworkData) (s : State) : State :=
  {| artworks := artworks s; isLoading := isLoading s; currentPage := currentPage s;
     selectedCount := selectedCount s; selectedItems := selectedItems s;
     unselectedItems := unselectedItems s; totalItems := totalItems s;
     itemsCache := v |}.

(** The values given to [useState] and [useRef]. *)
Definition initial : State :=
  {| artworks := []; isLoading := false; currentPage := 1;
     selectedCount := Js.Num 0; selectedItems := ∅; unselectedItems := ∅;
     totalItems := 1000; itemsCache := ∅ |}.

(** [set.size], as the integer JavaScript compares. *)
Definition sizeZ (X : gset Z) : Z := Z.of_nat (size X).

(** *** The auto-select effect (lines 73-92) *)

(** The [for] loop over [availableIds]; [newSelected] and
    [currentlySelected] are the two variables it updates, and the early
    exit is the [break]. *)
Fixpoint autoSelectLoop (unselected : gset Z) (target : Js.number)
    (availableIds : list Z) (newSelected : gset Z) (currentlySelected : Z)
    : gset Z :=
  match availableIds with
  | [] => newSelected
  | i :: rest =>
      if bool_decide (i ∉ newSelected) && bool_decide (i ∉ unselected) then
        let newSelected' := {[i]} ∪ newSelected in
        let currentlySelected' := currentlySelected + 1 in
        if Js.ge currentlySelected' target then newSelected'
        else autoSelectLoop unselected target rest newSelected' currentlySelected'
      else autoSelectLoop unselected target rest newSelected currentlySelected
  end.

(** The body of the effect: [None] when one of the two guards returns
    early, [Some X] when it reaches [setSelectedItems(X)]. *)
Definition autoSelectEffect (s : State) : option (gset Z) :=
  if negb (Js.truthy (selectedCount s)) then None
  else
    let currentlySelected := sizeZ (selectedItems s) in
    if Js.ge currentlySelected (selectedCount s) then None
    else
      let availableIds := map id (artworks s) in
      Some (autoSelectLoop (unselectedItems s) (selectedCount s)
              availableIds (selectedItems s) currentlySelected).

(** One run of the effect on the state of the render it belongs to. *)
Definition runAutoSelect (s : State) : State :=
  match autoSelectEffect s with
  | Some newSelected => setSelectedItems newSelected s
  | None => s
  end.

(** *** Event handlers (lines 94-163 and 176-193)

    A handler reads the state of the render it was created in and queues
    one value per cell; React applies the queued values together before
    the next render. When one click makes the table call two handlers,
    both read the same render and the values of the second replace those
    of the first, so the click acts as the second handler alone. *)

(** [handlePageChange]; [page] is [event.page], possibly undefined. *)
Definition handlePageChange (page : option Z) (s : State) : State :=
  let newPage := default 0 page + 1 in
  setCurrentPage newPage s.

Definition handleRowSelect (e_data : ArtworkData) (s : State) : State :=
  let updatedSelected := {[id e_data]} ∪ selectedItems s in
  let updatedUnselected := unselectedItems s ∖ {[id e_data]} in
  setSelectedCount (Js.Num (sizeZ updatedSelected))
    (setUnselectedItems updatedUnselected
       (setSelectedItems updatedSelected s)).

Definition handleRowUnselect (e_data : ArtworkData) (s : State) : State :=
  let updatedSelected := selectedItems s ∖ {[id e_data]} in
  let updatedUnselected := {[id e_data]} ∪ unselectedItems s in
  setSelectedCount (Js.Num (sizeZ updatedSelected))
    (setUnselectedItems updatedUnselected
       (setSelectedItems updatedSelected s)).

(** The body of the two [artworks.forEach] loops: [keep] says whether the
    row ends up selected; the pair is [(newSelectedIds, newUnselectedIds)]. *)
Definition markRow (keep : Z → bool) (acc : gset Z * gset Z)
    (artwork : ArtworkData) : gset Z * gset Z :=
  if keep (id artwork)
  then ({[id artwork]} ∪ acc.1, acc.2 ∖ {[id artwork]})
  else (acc.1 ∖ {[id artwork]}, {[id artwork]} ∪ acc.2).

Definition markPage (keep : Z → bool) (s : State) : State :=
  let '(newSelectedIds, newUnselectedIds) :=
    foldl (markRow keep) (selectedItems s, unselectedItems s) (artworks s) in
  setSelectedCount (Js.Num (sizeZ newSelectedIds))
    (setUnselectedItems newUnselectedIds
       (setSelectedItems newSelectedIds s)).

(** [handleSelectionChange]; [e_value] is the table's new selection. *)
Definition handleSelectionChange (e_value : list ArtworkData) (s : State) : State :=
  let currentlySelected : gset Z := list_to_set (map id e_value) in
  markPage (λ i, bool_decide (i ∈ currentlySelected)) s.

(** The [onChange] of the header check box; [e_checked] is [e.checked]. *)
Definition headerCheckboxOnChange (e_checked : bool) (s : State) : State :=
  markPage (λ _, e_checked) s.

(** [handleSubmitSelection]; [value] is [numberInputRef.current?.value]. *)
Definition handleSubmitSelection (value : option string) (s : State) : State :=
  let inputValue := Js.or_default value "0" in
  let targetCount := Js.parseInt inputValue in
  setCurrentPage 1
    (setSelectedCount targetCount
       (setUnselectedItems ∅ (setSelectedItems ∅ s))).

Definition resetSelections (s : State) : State :=
  setSelectedCount (Js.Num 0)
    (setUnselectedItems ∅ (setSelectedItems ∅ s)).

(** *** What the render derives from the state (lines 165-208) *)

Definition currentPageItemIds (s : State) : list Z := map id (artworks s).



Definition getSelectedArtworks (s : State) : list ArtworkData :=
  filter (λ artwork, id artwork ∈ selectedItems s ∧ id artwork ∉ unselectedItems s)
    (artworks s).

(** The number printed after "Selected Items:". *)
Definition selectedItemsShown (s : State) : nat := length (getSelectedArtworks s).

(** *** The page loader (lines 38-70) *)

Definition processArtwork (artwork : RawArtwork) : ArtworkData :=
  {| id := raw_id artwork;
     title := Js.or_default (raw_title artwork) "Untitled";
     artist_display := Js.or_default (raw_artist_display artwork) "Unknown Artist" |}.

(** [loadArtworks] up to its [await]. *)
Definition loadArtworks_begin (s : State) : State := setIsLoading true s.

(** [loadArtworks] after the [await], when the reply arrived and parsed.
    [setTotalItems] is called only if [data.pagination.total] is present
    and truthy; otherwise the cell keeps its value. *)
Definition loadArtworks_resolve (reply : Reply) (s : State) : State :=
  let processedArtworks := map processArtwork (data reply) in
  let cache := foldl (λ m item, <[id item := item]> m) (itemsCache s) processedArtworks in
  let total :=
    match pagination_total reply with
    | Some total => if total =? 0 then totalItems s else total
    | None => totalItems s
    end in
  setIsLoading false
    (setTotalItems total
       (setArtworks processedArtworks (setItemsCache cache s))).

(** [loadArtworks] after the [await], through [catch] and [finally]. *)
Definition loadArtworks_reject (s : State) : State := setIsLoading false s.

(** *** The component in time

    A world is the component's state together with the page numbers of the
    fetches that were started and have not completed, oldest first. *)
Record World : Type := {
  state : State;
  inFlight : list Z;
}.

Inductive Event : Type :=
| PageChange (page : option Z)
| RowSelect (e_data : ArtworkData)
| RowUnselect (e_data : ArtworkData)
| SelectionChange (e_value : list ArtworkData)
| HeaderCheckbox (e_checked : bool)
| SubmitSelection (value : option string)
| ResetSelections
| FetchResolved (k : nat) (reply : Reply)
| FetchRejected (k : nat).

Definition handle (e : Event) (s : State) : State :=
  match e with
  | PageChange page => handlePageChange page s
  | RowSelect e_data => handleRowSelect e_data s
  | RowUnselect e_data => handleRowUnselect e_data s
  | SelectionChange e_value => handleSelectionChange e_value s
  | HeaderCheckbox e_checked => headerCheckboxOnChange e_checked s
  | SubmitSelection value => handleSubmitSelection value s
  | ResetSelections => resetSelections s
  | FetchResolved _ _ | FetchRejected _ => s
  end.

(** The effects of the render that follows an update from [prev] to [s],
    in the order the component declares them: the loader when
    [currentPage] changed, then the auto-select effect. Running the latter
    once fixes the contents of the state: see [runAutoSelect_stable]. *)
Definition commit (prev s : State) (fetches : list Z) : World :=
  if currentPage s =? currentPage prev
  then {| state := runAutoSelect s; inFlight := fetches |}
  else {| state := runAutoSelect (loadArtworks_begin s);
          inFlight := fetches ++ [currentPage s] |}.

(** The first render: the loader starts for page 1, the auto-select effect
    runs on the initial state. *)
Definition mounted : World :=
  {| state := runAutoSelect (loadArtworks_begin initial);
     inFlight := [currentPage initial] |}.

Definition step (w : World) (e : Event) : World :=
  match e with
  | FetchResolved k reply =>
      match inFlight w !! k with
      | Some _ => {| state := runAutoSelect (loadArtworks_resolve reply (state w));
                     inFlight := delete k (inFlight w) |}
      | None => w
      end
  | FetchRejected k =>
      match inFlight w !! k with
      | Some _ => {| state := runAutoSelect (loadArtworks_reject (state w));
                     inFlight := delete k (inFlight w) |}
      | None => w
      end
  | _ => commit (state w) (handle e (state w)) (inFlight w)
  end.

Definition run (w : World) (events : list Event) : World := foldl step w events.

End App.

Import App.

(** ** Notions used in the statements *)


(** The four edits the user makes by hand on the rows of the page. *)
Definition isManualEdit (e : Event) : bool :=
  match e with
  | RowSelect _ | RowUnselect _ | SelectionChange _ | HeaderCheckbox _ => true
  | _ => false
  end.




(** ** Sample pages and traces *)

Definition rawRow (i : Z) : RawArtwork :=
  {| raw_id := i; raw_title := None; raw_artist_display := None |}.

Definition row (i : Z) : ArtworkData := processArtwork (rawRow i).

(** A page of twelve rows with consecutive ids. *)
Definition pageFrom (first : Z) : Reply :=
  {| data := map rawRow (seqZ first 12); pagination_total := Some 1000 |}.

Definition threeRows : Reply :=
  {| data := [rawRow 1; rawRow 2; rawRow 3]; pagination_total := None |}.

(** Page 1 is on screen and 5 is submitted as target. *)
Definition fiveOfPage1 : World :=
  run mounted [FetchResolved 0 (pageFrom 1); SubmitSelection (Some "5")].

(** 15 is submitted as target, page 1 arrives, the user moves to page 2,
    page 2 arrives. *)
Definition fifteenOverTwoPages : list Event :=
  [SubmitSelection (Some "15"); FetchResolved 0 (pageFrom 1);
   PageChange (Some 1); FetchResolved 0 (pageFrom 13)].

Definition noneOfThree : World := run mounted [FetchResolved 0 threeRows].


(** Page 1 is on screen; the user moves to page 2 and back to page 1. *)
Definition toPage2AndBack : list Event :=
  [FetchResolved 0 (pageFrom 1); PageChange (Some 1); PageChange (Some 0)].

(** Both fetches are then outstanding; the reply for page 1, requested
    last, resolves first, and the older one for page 2 after it. *)
Definition staleReply : World :=
  run mounted (toPage2AndBack ++ [FetchResolved 1 (pageFrom 1);
                                   FetchResolved 0 (pageFrom 13)]).

(** ** The table's paging, and notions for further statements *)

(** [ITEMS_PER_PAGE] (line 34). *)
Definition ITEMS_PER_PAGE : Z := 12.

(** The [first] handed to the table (line 249): the index of the first
    row of the current page. *)
Definition first (s : State) : Z := (currentPage s - 1) * ITEMS_PER_PAGE.

(** Events that move between pages or complete a fetch; the user edits
    nothing. *)
Definition isNavigation (e : Event) : bool :=
  match e with
  | PageChange _ | FetchResolved _ _ | FetchRejected _ => true
  | _ => false
  end.

(** The visible ids that are in neither set, in page order. *)
Definition undecidedOnPage (s : State) : list Z :=
  filter (λ i, (i ∉ selectedItems s) ∧ (i ∉ unselectedItems s)) (currentPageItemIds s).

(** The auto-select effect has nothing to do: no target, or enough ids. *)
Definition targetMet (s : State) : Prop :=
  match selectedCount s with
  | Js.NaN => True
  | Js.Num z => z ≤ sizeZ (selectedItems s)
  end.


(** Events that empty both sets: a bulk target and "Reset All". *)
Definition clearsSelection (e : Event) : bool :=
  match e with
  | SubmitSelection _ | ResetSelections => true
  | _ => false
  end.


(** The user moves to page 2 and the page arrives. *)
Definition toPage2 : list Event :=
  [PageChange (Some 1); FetchResolved 0 (pageFrom 13)].

(** Page 2 is on screen, nothing is selected. *)
Definition onPage2 : World := run mounted (FetchResolved 0 (pageFrom 1) :: toPage2).

(** The state the effect finds when 5 is submitted with page 1 on screen. *)
Definition beforeFill : State :=
  handleSubmitSelection (Some "5") (state (run mounted [FetchResolved 0 (pageFrom 1)])).

(** ** Tactics *)

(** A decidable closed proposition, settled by evaluation. *)
Ltac by_eval := apply (bool_decide_unpack _); vm_compute; exact I.

(** A reply whose rows carry the given ids is taken apart row by row, so
    that a trace over it can be evaluated; titles and artists stay
    arbitrary. *)
Ltac explicit_rows reply H :=
  let rows := fresh "rows" in
  let total := fresh "total" in
  destruct reply as [rows total];
  cbv in H;
  repeat (destruct rows as [|[? ? ?] rows]; [discriminate H|];
          injection H as -> H);
  destruct rows; [clear H|discriminate H].


(** ** The auto-select loop *)

Section AutoSelectLoop.

Variable unselected : gset Z.
Variable target : Js.number.

Implicit Types (ids : list Z) (X : gset Z) (n : Z).

Lemma sizeZ_add (i : Z) X : i ∉ X → sizeZ ({[i]} ∪ X) = sizeZ X + 1.
Proof.
  intros Hi. unfold sizeZ.
  rewrite size_union by set_solver. rewrite size_singleton. lia.
Qed.

(** The loop takes [i] exactly when [i] is undecided. *)
Lemma autoSelectLoop_cons i ids X n :
  autoSelectLoop unselected target (i :: ids) X n =
    if decide (i ∈ X ∨ i ∈ unselected)
    then autoSelectLoop unselected target ids X n
    else if Js.ge (n + 1) target then {[i]} ∪ X
         else autoSelectLoop unselected target ids ({[i]} ∪ X) (n + 1).
Proof.
  simpl. destruct (decide (i ∈ X ∨ i ∈ unselected)) as [[H|H]|H].
  - rewrite (bool_decide_eq_false_2 (i ∉ X)) by tauto. done.
  - rewrite (bool_decide_eq_false_2 (i ∉ unselected)) by tauto.
    by rewrite andb_false_r.
  - rewrite !bool_decide_eq_true_2 by tauto. done.
Qed.

(** The loop only adds: nothing leaves [newSelected]. *)
Lemma autoSelectLoop_subseteq ids X n :
  X ⊆ autoSelectLoop unselected target ids X n.
Proof.
  revert X n. induction ids as [|i ids IH]; intros X n; [done|].
  rewrite autoSelectLoop_cons. case_decide; [apply IH|].
  destruct (Js.ge _ _); [set_solver|].
  etrans; [|apply IH]. set_solver.
Qed.

(** Whatever the loop adds is an undecided id of the visible page. *)
Lemma autoSelectLoop_added ids X n (x : Z) :
  x ∈ autoSelectLoop unselected target ids X n →
  x ∈ X ∨ (x ∈ ids ∧ x ∉ unselected).
Proof.
  revert X n. induction ids as [|i ids IH]; intros X n; [by left|].
  rewrite autoSelectLoop_cons. case_decide as Hd.
  - intros [?|[? ?]]%IH; [by left|right]. split; [by right|done].
  - destruct (Js.ge _ _).
    + intros [->%elem_of_singleton|?]%elem_of_union; [right|by left].
      split; [by left|tauto].
    + intros [[->%elem_of_singleton|?]%elem_of_union|[? ?]]%IH.
      * right. split; [by left|tauto].
      * by left.
      * right. split; [by right|done].
Qed.


(** When every visible id is decided the loop changes nothing. *)
Lemma autoSelectLoop_decided ids X n :
  (∀ i, i ∈ ids → i ∈ X ∨ i ∈ unselected) →
  autoSelectLoop unselected target ids X n = X.
Proof.
  revert n. induction ids as [|i ids IH]; intros n Hall; [done|].
  rewrite autoSelectLoop_cons. rewrite decide_True.
  - apply IH. intros j Hj. apply Hall. by right.
  - apply Hall. by left.
Qed.

(** If the loop ends below the target, it ran through the whole page:
    every visible id is then selected or excluded. *)
Lemma autoSelectLoop_exhausted ids X n :
  n = sizeZ X →
  Js.ge (sizeZ (autoSelectLoop unselected target ids X n)) target = false →
  ∀ i, i ∈ ids →
    i ∈ autoSelectLoop unselected target ids X n ∨ i ∈ unselected.
Proof.
  revert X n. induction ids as [|i ids IH]; intros X n Hn Hlt j Hj.
  { by apply elem_of_nil in Hj. }
  rewrite autoSelectLoop_cons in Hlt |- *.
  case_decide as Hd.
  - apply elem_of_cons in Hj as [->|Hj]; [|by apply IH].
    destruct Hd as [Hd|Hd]; [left|by right].
    by apply autoSelectLoop_subseteq.
  - assert (n + 1 = sizeZ ({[i]} ∪ X)) as Hn'.
    { rewrite sizeZ_add by tauto. lia. }
    destruct (Js.ge (n + 1) target) eqn:Hge.
    { rewrite Hn' in Hge. congruence. }
    apply elem_of_cons in Hj as [->|Hj]; [|by apply IH].
    left. apply autoSelectLoop_subseteq. set_solver.
Qed.

End AutoSelectLoop.

(** ** The auto-select effect *)

Section AutoSelectEffect.

Implicit Types (s : State).

(** The effect writes [selectedItems] and no other cell. *)
Lemma runAutoSelect_frame s :
  artworks (runAutoSelect s) = artworks s
  ∧ currentPage (runAutoSelect s) = currentPage s
  ∧ selectedCount (runAutoSelect s) = selectedCount s
  ∧ unselectedItems (runAutoSelect s) = unselectedItems s.
Proof. unfold runAutoSelect. by destruct (autoSelectEffect s). Qed.

(** The second guard: a target that is already met stops the effect. *)
Lemma autoSelectEffect_satisfied s (z : Z) :
  selectedCount s = Js.Num z → z ≤ sizeZ (selectedItems s) →
  autoSelectEffect s = None.
Proof.
  intros Hc Hz. unfold autoSelectEffect. rewrite Hc. simpl.
  destruct (negb (negb (z =? 0))); [done|].
  by rewrite (proj2 (Z.leb_le _ _) Hz).
Qed.

(** The first guard, and the second one for a negative target. *)
Lemma autoSelectEffect_no_target s :
  selectedCount s = Js.NaN ∨ (∃ z, selectedCount s = Js.Num z ∧ z ≤ 0) →
  autoSelectEffect s = None.
Proof.
  intros [Hc|(z & Hc & Hz)]; unfold autoSelectEffect; rewrite Hc; simpl; [done|].
  destruct (Z.eqb_spec z 0) as [->|Hne]; [done|]. simpl.
  assert (0 ≤ sizeZ (selectedItems s)) by (unfold sizeZ; lia).
  rewrite (proj2 (Z.leb_le _ _)); [done|lia].
Qed.

Lemma runAutoSelect_subseteq s : selectedItems s ⊆ selectedItems (runAutoSelect s).
Proof.
  unfold runAutoSelect, autoSelectEffect.
  destruct (negb _); [done|]. destruct (Js.ge _ _); [done|].
  apply autoSelectLoop_subseteq.
Qed.


(** Every state change re-runs the effect, and the effect changes the
    state whenever it passes its guards. The contents of the state are
    nevertheless fixed after one run: a second run either stops at a guard
    or writes the set that is already there. *)
Lemma runAutoSelect_stable s : runAutoSelect (runAutoSelect s) = runAutoSelect s.
Proof.
  destruct (autoSelectEffect s) as [X|] eqn:He.
  2:{ unfold runAutoSelect. rewrite He. unfold runAutoSelect. by rewrite He. }
  assert (runAutoSelect s = setSelectedItems X s) as ->
    by (unfold runAutoSelect; by rewrite He).
  unfold autoSelectEffect in He.
  destruct (negb (Js.truthy (selectedCount s))) eqn:Ht; [done|].
  destruct (Js.ge (sizeZ (selectedItems s)) (selectedCount s)) eqn:Hg; [done|].
  injection He as He.
  unfold runAutoSelect, autoSelectEffect. simpl. rewrite Ht.
  destruct (Js.ge (sizeZ X) (selectedCount s)) eqn:Hg'; [done|].
  rewrite autoSelectLoop_decided; [done|].
  rewrite <- He in Hg' |- *.
  by apply autoSelectLoop_exhausted.
Qed.

(** The effect reads four cells only. *)
Lemma autoSelectEffect_deps s1 s2 :
  artworks s1 = artworks s2 → selectedCount s1 = selectedCount s2 →
  selectedItems s1 = selectedItems s2 → unselectedItems s1 = unselectedItems s2 →
  autoSelectEffect s1 = autoSelectEffect s2.
Proof. unfold autoSelectEffect. by intros -> -> -> ->. Qed.

(** Every state between two events is at rest: the effect would write
    nothing new. Events that leave the four cells alone (a page change, a
    failed fetch) can therefore be followed by a run of the effect, as
    [commit] and [step] do, without changing the state. *)
Lemma run_at_rest events :
  runAutoSelect (state (run mounted events)) = state (run mounted events).
Proof.
  induction events as [|e events IH] using rev_ind.
  { apply runAutoSelect_stable. }
  unfold run in *. rewrite foldl_snoc.
  set (w := foldl step mounted events) in *.
  destruct e; simpl; unfold commit;
    repeat case_match; simpl; try apply runAutoSelect_stable; done.
Qed.

End AutoSelectEffect.

(** ** Disjointness of the two sets *)

Section Disjoint.











End Disjoint.

(** ** Bulk selection of the first N records *)

Section BulkFill.

(** C2. From the freshly mounted component, with 15 submitted as bulk
    target (before page 1 arrives, or once it is on screen), page 1
    received with ids 1..12, then page 2 requested and received with ids
    13..24, and no manual edit in between, exactly the ids 1..15 are
    selected, 15 of them. *)
Theorem bulk_fill_across_two_pages (page1 page2 : Reply) (events : list Event) :
  map raw_id (data page1) = seqZ 1 12 →
  map raw_id (data page2) = seqZ 13 12 →
  events = [SubmitSelection (Some "15"); FetchResolved 0 page1;
            PageChange (Some 1); FetchResolved 0 page2]
  ∨ events = [FetchResolved 0 page1; SubmitSelection (Some "15");
              PageChange (Some 1); FetchResolved 0 page2] →
  let w := run mounted events in
  selectedItems (state w) = list_to_set (seqZ 1 15)
  ∧ sizeZ (selectedItems (state w)) = 15.
Proof.
  intros H1 H2 Hev.
  explicit_rows page1 H1. explicit_rows page2 H2.
  destruct Hev as [-> | ->]; split; vm_compute; reflexivity.
Qed.

(** C5. With the single page 1..12 on screen and 5 as bulk target (the page
    arriving after the target was submitted, or before), exactly the ids
    1..5 are selected, and running the effect again stops at its guard:
    it writes nothing. In general the effect writes nothing in any state
    whose selection has reached the target. *)
Theorem fill_saturation :
  (∀ page1 w,
     map raw_id (data page1) = seqZ 1 12 →
     w = run mounted [SubmitSelection (Some "5"); FetchResolved 0 page1]
     ∨ w = run mounted [FetchResolved 0 page1; SubmitSelection (Some "5")] →
     selectedItems (state w) = list_to_set (seqZ 1 5)
     ∧ autoSelectEffect (state w) = None
     ∧ runAutoSelect (state w) = state w)
  ∧ (∀ s z,
       selectedCount s = Js.Num z → z ≤ sizeZ (selectedItems s) →
       autoSelectEffect s = None ∧ runAutoSelect s = s).
Proof.
  split.
  - intros page1 w H1 Hw.
    explicit_rows page1 H1.
    assert (autoSelectEffect (state w) = None) as He
      by (destruct Hw as [-> | ->]; vm_compute; reflexivity).
    split_and!; [|done|unfold runAutoSelect; by rewrite He].
    destruct Hw as [-> | ->]; vm_compute; reflexivity.
  - intros s z Hc Hz.
    pose proof (autoSelectEffect_satisfied s z Hc Hz) as He.
    split; [done|]. unfold runAutoSelect. by rewrite He.
Qed.

End BulkFill.

(** ** Manual edits *)

Section ManualEdits.

Implicit Types (s : State) (w : World) (e : Event).

Lemma markPage_cells keep s :
  selectedCount (markPage keep s) = Js.Num (sizeZ (selectedItems (markPage keep s)))
  ∧ currentPage (markPage keep s) = currentPage s
  ∧ artworks (markPage keep s) = artworks s.
Proof. unfold markPage. by destruct (foldl _ _ _). Qed.

Lemma manual_cells e s :
  isManualEdit e = true →
  selectedCount (handle e s) = Js.Num (sizeZ (selectedItems (handle e s)))
  ∧ currentPage (handle e s) = currentPage s
  ∧ artworks (handle e s) = artworks s.
Proof.
  destruct e; try discriminate; intros _; simpl; try done;
    apply markPage_cells.
Qed.

Lemma manual_effect_stops e s :
  isManualEdit e = true → autoSelectEffect (handle e s) = None.
Proof.
  intros He. destruct (manual_cells e s He) as (Hc & _ & _).
  by apply (autoSelectEffect_satisfied _ _ Hc).
Qed.

(** A manual edit leaves the state its handler wrote: no page is
    requested and the auto-select effect stops at its guard. *)
Lemma step_manual w e :
  isManualEdit e = true →
  step w e = {| state := handle e (state w); inFlight := inFlight w |}.
Proof.
  intros He.
  assert (step w e = commit (state w) (handle e (state w)) (inFlight w)) as ->
    by (destruct e; try discriminate; done).
  destruct (manual_cells e (state w) He) as (_ & Hp & _).
  unfold commit. rewrite Hp, Z.eqb_refl.
  unfold runAutoSelect. by rewrite manual_effect_stops.
Qed.



(** C4, as the code has it. When the selection meets a positive target
    and the user unselects a selected row, the handler lowers
    [selectedCount] to the new size, the effect stops at its guard and no
    other id gets selected, even if the page shows undecided ids. *)
Theorem row_unselect_at_target_no_refill w (e_data : ArtworkData) :
  let s := state w in
  selectedCount s = Js.Num (sizeZ (selectedItems s)) →
  0 < sizeZ (selectedItems s) →
  id e_data ∈ selectedItems s →
  (∃ j, j ∈ currentPageItemIds s ∧ (j ∉ selectedItems s) ∧ (j ∉ unselectedItems s)) →
  let s' := state (step w (RowUnselect e_data)) in
  selectedItems s' = selectedItems s ∖ {[id e_data]}
  ∧ sizeZ (selectedItems s') = sizeZ (selectedItems s) - 1
  ∧ selectedCount s' = Js.Num (sizeZ (selectedItems s) - 1)
  ∧ autoSelectEffect s' = None.
Proof.
  intros s Hc Hpos Hin _ s'. subst s s'.
  rewrite (step_manual w (RowUnselect e_data)) by done. simpl.
  assert (sizeZ (selectedItems (state w) ∖ {[id e_data]})
          = sizeZ (selectedItems (state w)) - 1) as Hsz.
  { unfold sizeZ. rewrite size_difference by set_solver.
    rewrite size_singleton.
    assert (size (selectedItems (state w)) ≠ 0%nat)
      by (intros ?%size_empty_inv; set_solver).
    lia. }
  split_and!; [done|done|by rewrite Hsz|].
  by apply (manual_effect_stops (RowUnselect e_data)).
Qed.

End ManualEdits.

(** ** What the table shows *)

Section Shown.

Implicit Types (s : State).






End Shown.

(** ** Page replies *)

Section Replies.

Implicit Types (w : World) (reply : Reply).

Lemma loadArtworks_resolve_artworks reply (s : State) :
  artworks (loadArtworks_resolve reply s) = map processArtwork (data reply).
Proof. done. Qed.

(** C8, as the code has it. A fetch carries no sequence number: the reply
    of any outstanding fetch, whichever request it answers, replaces the
    visible page, so the page shown is that of the reply that resolved
    last. In particular, when page 2 is requested, then page 1 again, and
    the reply for page 1 resolves after the one for page 2, the visible
    page is page 1. *)
Theorem last_resolved_reply_is_visible :
  (∀ w k reply,
     is_Some (inFlight w !! k) →
     artworks (state (step w (FetchResolved k reply)))
       = map processArtwork (data reply))
  ∧ (∀ first1 reply2 reply1,
       let w := run mounted [FetchResolved 0 first1;
                             PageChange (Some 1); PageChange (Some 0);
                             FetchResolved 0 reply2; FetchResolved 0 reply1] in
       currentPage (state w) = 1
       ∧ artworks (state w) = map processArtwork (data reply1)
       ∧ inFlight w = []).
Proof.
  assert (∀ w k reply,
     is_Some (inFlight w !! k) →
     artworks (state (step w (FetchResolved k reply)))
       = map processArtwork (data reply)) as Hresolve.
  { intros w k reply [p Hp]. simpl. rewrite Hp. simpl.
    destruct (runAutoSelect_frame (loadArtworks_resolve reply (state w))) as (-> & _).
    apply loadArtworks_resolve_artworks. }
  split; [done|].
  intros first1 reply2 reply1 w. subst w.
  split_and!; vm_compute; reflexivity.
Qed.

End Replies.

(** ** Targets that select nothing *)

Section VoidTarget.

Implicit Types (w : World) (s : State).




End VoidTarget.

Section Instances.

Example parseInt_samples :
  Js.parseInt "15" = Js.Num 15 ∧ Js.parseInt "  -3" = Js.Num (-3)
  ∧ Js.parseInt "2.7" = Js.Num 2 ∧ Js.parseInt "1e3" = Js.Num 1
  ∧ Js.parseInt "abc" = Js.NaN ∧ Js.parseInt "-" = Js.NaN
  ∧ Js.parseInt (Js.or_default (Some "") "0") = Js.Num 0
  ∧ Js.parseInt (Js.or_default None "0") = Js.Num 0.
Proof. by vm_compute. Qed.

Lemma bulk_fill_across_two_pages_witness :
  map raw_id (data (pageFrom 1)) = seqZ 1 12
  ∧ map raw_id (data (pageFrom 13)) = seqZ 13 12
  ∧ selectedItems (state (run mounted fifteenOverTwoPages)) = list_to_set (seqZ 1 15)
  ∧ sizeZ (selectedItems (state (run mounted fifteenOverTwoPages))) = 15.
Proof.
  split; [reflexivity|]. split; [reflexivity|].
  apply (bulk_fill_across_two_pages (pageFrom 1) (pageFrom 13) fifteenOverTwoPages);
    [reflexivity|reflexivity|left; reflexivity].
Defined.

Lemma fill_saturation_witness :
  map raw_id (data (pageFrom 1)) = seqZ 1 12
  ∧ selectedItems (state fiveOfPage1) = list_to_set (seqZ 1 5)
  ∧ selectedCount (state fiveOfPage1) = Js.Num 5
  ∧ 5 ≤ sizeZ (selectedItems (state fiveOfPage1))
  ∧ autoSelectEffect (state fiveOfPage1) = None
  ∧ runAutoSelect (state fiveOfPage1) = state fiveOfPage1.
Proof.
  split; [reflexivity|].
  split; [apply (proj1 fill_saturation (pageFrom 1) fiveOfPage1);
          [reflexivity|right; reflexivity]|].
  split; [reflexivity|]. split; [by_eval|].
  apply (proj2 fill_saturation (state fiveOfPage1) 5); [reflexivity|by_eval].
Defined.


Lemma row_unselect_at_target_no_refill_witness :
  selectedCount (state fiveOfPage1) = Js.Num (sizeZ (selectedItems (state fiveOfPage1)))
  ∧ 0 < sizeZ (selectedItems (state fiveOfPage1))
  ∧ id (row 3) ∈ selectedItems (state fiveOfPage1)
  ∧ (6 ∈ currentPageItemIds (state fiveOfPage1)
     ∧ (6 ∉ selectedItems (state fiveOfPage1))
     ∧ (6 ∉ unselectedItems (state fiveOfPage1)))
  ∧ selectedItems (state (step fiveOfPage1 (RowUnselect (row 3))))
      = selectedItems (state fiveOfPage1) ∖ {[id (row 3)]}
  ∧ autoSelectEffect (state (step fiveOfPage1 (RowUnselect (row 3)))) = None.
Proof.
  assert (6 ∈ currentPageItemIds (state fiveOfPage1)
          ∧ (6 ∉ selectedItems (state fiveOfPage1))
          ∧ (6 ∉ unselectedItems (state fiveOfPage1))) as Hsix
    by (split; [by_eval|split; by_eval]).
  split; [reflexivity|]. split; [by_eval|]. split; [by_eval|].
  split; [exact Hsix|].
  split;
    apply (row_unselect_at_target_no_refill fiveOfPage1 (row 3));
    try reflexivity; try by_eval; by exists 6.
Defined.


Lemma last_resolved_reply_is_visible_witness :
  is_Some (inFlight mounted !! 0%nat)
  ∧ artworks (state (step mounted (FetchResolved 0 (pageFrom 13))))
      = map processArtwork (data (pageFrom 13)).
Proof.
  assert (is_Some (inFlight mounted !! 0%nat)) as H by (exists 1; reflexivity).
  split; [exact H|].
  exact (proj1 last_resolved_reply_is_visible mounted 0%nat (pageFrom 13) H).
Defined.


(** ** Where the specification and the code part

    Each lemma evaluates the component on one trace. *)


(** Against C4: with 1..5 selected for a target of 5 and 6..12 visible and
    undecided, unselecting row 3 leaves 1, 2, 4, 5 selected: id 6 is not
    taken and the count stays at 4. *)
Lemma unselect_at_target_is_not_refilled :
  selectedCount (state fiveOfPage1) = Js.Num 5
  ∧ sizeZ (selectedItems (state fiveOfPage1)) = 5
  ∧ 3 ∈ selectedItems (state fiveOfPage1)
  ∧ 6 ∈ currentPageItemIds (state fiveOfPage1)
  ∧ (6 ∉ selectedItems (state fiveOfPage1))
  ∧ (6 ∉ unselectedItems (state fiveOfPage1))
  ∧ selectedItems (state (step fiveOfPage1 (RowUnselect (row 3))))
      = list_to_set [1; 2; 4; 5]
  ∧ (6 ∉ selectedItems (state (step fiveOfPage1 (RowUnselect (row 3)))))
  ∧ sizeZ (selectedItems (state (step fiveOfPage1 (RowUnselect (row 3))))) = 4.
Proof.
  split_and!; try (vm_compute; reflexivity); by_eval.
Qed.



(** Against C8: with page 1 on screen the user requests page 2 and then
    page 1 again; the reply for page 1 resolves first and the reply for
    page 2, the older request, last. The older reply is applied: the
    component is on page 1 and shows the rows of page 2. *)
Lemma stale_reply_is_applied :
  inFlight (run mounted toPage2AndBack) = [2; 1]
  ∧ currentPage (state staleReply) = 1
  ∧ currentPageItemIds (state staleReply) = seqZ 13 12
  ∧ inFlight staleReply = [].
Proof. by vm_compute. Qed.

End Instances.

(** ** The auto-select effect, in full *)

Section FirstUndecided.

Implicit Types (s : State) (ids : list Z) (X : gset Z).

Lemma filter_iff_on {A} (P1 P2 : A → Prop)
    `{!∀ x, Decision (P1 x), !∀ x, Decision (P2 x)} (l : list A) :
  (∀ x, x ∈ l → P1 x ↔ P2 x) → filter P1 l = filter P2 l.
Proof.
  induction l as [|a l IH]; intros Hiff; [done|].
  assert (P1 a ↔ P2 a) as Ha by (apply Hiff; by left).
  rewrite !filter_cons, IH by (intros x Hx; apply Hiff; by right).
  destruct (decide (P1 a)), (decide (P2 a)); tauto.
Qed.

(** On a page without repeated ids, a loop that starts below the target
    takes the first undecided ids, as many as are missing. *)
Lemma autoSelectLoop_take (unselected : gset Z) (z : Z) ids X n :
  NoDup ids → n = sizeZ X → n < z →
  autoSelectLoop unselected (Js.Num z) ids X n
    = X ∪ list_to_set (take (Z.to_nat (z - n))
                         (filter (λ i, (i ∉ X) ∧ (i ∉ unselected)) ids)).
Proof.
  intros Hnd. revert X n.
  induction Hnd as [|i ids Hi Hnd IH]; intros X n Hn Hlt.
  { simpl. rewrite filter_nil, take_nil. set_solver. }
  rewrite autoSelectLoop_cons, filter_cons.
  destruct (decide (i ∈ X ∨ i ∈ unselected)) as [Hd|Hd].
  - rewrite decide_False by tauto. by apply IH.
  - rewrite decide_True by tauto.
    replace (Z.to_nat (z - n)) with (S (Z.to_nat (z - (n + 1)))) by lia.
    simpl. destruct (Z.leb_spec z (n + 1)) as [Hge|Hless].
    + replace (Z.to_nat (z - (n + 1))) with 0%nat by lia.
      rewrite take_0. set_solver.
    + rewrite IH; [|rewrite sizeZ_add by tauto; lia|lia].
      rewrite (filter_iff_on (λ j, (j ∉ {[i]} ∪ X) ∧ (j ∉ unselected))
                 (λ j, (j ∉ X) ∧ (j ∉ unselected))).
      * set_solver.
      * intros j Hj. assert (j ≠ i) by (intros ->; done). set_solver.
Qed.

Lemma undecided_NoDup s : NoDup (currentPageItemIds s) → NoDup (undecidedOnPage s).
Proof. apply NoDup_filter. Qed.

Lemma sizeZ_union_list X (l : list Z) :
  NoDup l → (∀ i, i ∈ l → i ∉ X) →
  sizeZ (X ∪ list_to_set l) = sizeZ X + Z.of_nat (length l).
Proof.
  intros Hnd Hl. unfold sizeZ.
  rewrite size_union by (intros i Hi Hi'%elem_of_list_to_set; by apply (Hl i)).
  rewrite size_list_to_set by done. lia.
Qed.

(** X1. When the selection is below a target, on a page that shows no id
    twice, the effect selects the first undecided visible ids in page
    order, as many as the target still misses or all of them if there are
    fewer; the selection then has the size of the target, or of the old
    selection plus all undecided ids, whichever is smaller. *)
Theorem auto_select_takes_first_undecided s (z : Z) :
  selectedCount s = Js.Num z →
  sizeZ (selectedItems s) < z →
  NoDup (currentPageItemIds s) →
  selectedItems (runAutoSelect s)
    = selectedItems s
      ∪ list_to_set (take (Z.to_nat (z - sizeZ (selectedItems s))) (undecidedOnPage s))
  ∧ sizeZ (selectedItems (runAutoSelect s))
    = Z.min z (sizeZ (selectedItems s) + Z.of_nat (length (undecidedOnPage s))).
Proof.
  intros Hc Hlt Hnd.
  assert (selectedItems (runAutoSelect s)
    = selectedItems s
      ∪ list_to_set (take (Z.to_nat (z - sizeZ (selectedItems s))) (undecidedOnPage s)))
    as Hsel.
  { unfold runAutoSelect, autoSelectEffect. rewrite Hc. simpl.
    assert (0 ≤ sizeZ (selectedItems s)) by (unfold sizeZ; lia).
    destruct (Z.eqb_spec z 0) as [->|_]; [lia|]. simpl.
    destruct (Z.leb_spec z (sizeZ (selectedItems s))); [lia|]. simpl.
    by apply autoSelectLoop_take. }
  split; [done|]. rewrite Hsel.
  rewrite sizeZ_union_list.
  - rewrite length_take. lia.
  - eapply sublist_NoDup; [by apply undecided_NoDup|apply sublist_take].
  - intros i Hi. apply (subseteq_take _ _ i) in Hi. unfold undecidedOnPage in Hi.
    apply list_elem_of_filter in Hi. tauto.
Qed.

End FirstUndecided.

(** ** The target as a bound *)

Section WithinTarget.

Implicit Types (s : State) (w : World) (e : Event).






End WithinTarget.

(** ** Moving between pages *)

Section Navigation.

Implicit Types (s : State) (w : World) (e : Event) (events : list Event).

Lemma runAutoSelect_added s (x : Z) :
  x ∈ selectedItems (runAutoSelect s) →
  x ∈ selectedItems s ∨ (x ∈ currentPageItemIds s ∧ x ∉ unselectedItems s).
Proof.
  unfold runAutoSelect, autoSelectEffect.
  destruct (negb _); [by left|]. destruct (Js.ge _ _); [by left|].
  simpl. apply autoSelectLoop_added.
Qed.

Lemma targetMet_stops s : targetMet s → runAutoSelect s = s.
Proof.
  unfold targetMet, runAutoSelect. intros H.
  destruct (selectedCount s) as [|z] eqn:Hc.
  - rewrite autoSelectEffect_no_target; [done|by left].
  - by rewrite (autoSelectEffect_satisfied s z).
Qed.

(** A navigation event leaves the world alone or runs the effect on a
    state with the same sets and target. *)
Lemma step_navigation w e :
  isNavigation e = true →
  state (step w e) = state w
  ∨ ∃ s1, state (step w e) = runAutoSelect s1
          ∧ selectedItems s1 = selectedItems (state w)
          ∧ unselectedItems s1 = unselectedItems (state w)
          ∧ selectedCount s1 = selectedCount (state w).
Proof.
  destruct e as [page| | | | | | |k reply|k]; try discriminate; intros _; simpl.
  - right. unfold commit. case_match; simpl; eauto.
  - destruct (inFlight w !! k); [|by left]. right. simpl. eauto.
  - destruct (inFlight w !! k); [|by left]. right. simpl. eauto.
Qed.

(** X3. A page change, an arriving page or a failed fetch never changes
    the excluded ids or the target and never unselects an id; an id it
    newly selects is on the page shown afterwards and was not excluded. *)
Theorem navigation_keeps_decisions w e :
  isNavigation e = true →
  unselectedItems (state (step w e)) = unselectedItems (state w)
  ∧ selectedCount (state (step w e)) = selectedCount (state w)
  ∧ selectedItems (state w) ⊆ selectedItems (state (step w e))
  ∧ (∀ x, x ∈ selectedItems (state (step w e)) → x ∉ selectedItems (state w) →
       x ∈ currentPageItemIds (state (step w e)) ∧ x ∉ unselectedItems (state w)).
Proof.
  intros He. destruct (step_navigation w e He) as [->|(s1 & -> & Hs & Hu & Hc)].
  { split_and!; done. }
  destruct (runAutoSelect_frame s1) as (Ha & _ & Hc' & Hu').
  rewrite Hu', Hc', Hu, Hc. split_and!; [done|done| |].
  - rewrite <- Hs. apply runAutoSelect_subseteq.
  - intros x Hx Hnew. apply runAutoSelect_added in Hx as [Hx|[Hx Hx']].
    + by rewrite Hs in Hx.
    + rewrite Hu in Hx'. split; [|done].
      unfold currentPageItemIds in *. by rewrite Ha.
Qed.

Lemma step_navigation_met w e :
  isNavigation e = true → targetMet (state w) →
  selectedItems (state (step w e)) = selectedItems (state w)
  ∧ unselectedItems (state (step w e)) = unselectedItems (state w)
  ∧ selectedCount (state (step w e)) = selectedCount (state w).
Proof.
  intros He Hmet. destruct (step_navigation w e He) as [->|(s1 & -> & Hs & Hu & Hc)];
    [done|].
  rewrite targetMet_stops; [done|].
  unfold targetMet in *. by rewrite Hc, Hs.
Qed.

Lemma run_navigation_met events w :
  forallb isNavigation events = true → targetMet (state w) →
  selectedItems (state (run w events)) = selectedItems (state w)
  ∧ unselectedItems (state (run w events)) = unselectedItems (state w)
  ∧ selectedCount (state (run w events)) = selectedCount (state w).
Proof.
  revert w. induction events as [|e events IH]; intros w Hnav Hmet; [done|].
  simpl in Hnav. apply andb_true_iff in Hnav as [He Hnav]. simpl.
  destruct (step_navigation_met w e He Hmet) as (Hs & Hu & Hc).
  rewrite <- Hs, <- Hu, <- Hc. apply IH; [done|].
  unfold targetMet in *. by rewrite Hc, Hs.
Qed.



(** X5. Once the target is met (or there is none), moving between pages
    and receiving pages changes neither set nor the target: the selection
    made on a page is still there when the user comes back to it. *)
Theorem met_target_navigation_inert w events :
  targetMet (state w) →
  forallb isNavigation events = true →
  selectedItems (state (run w events)) = selectedItems (state w)
  ∧ unselectedItems (state (run w events)) = unselectedItems (state w)
  ∧ selectedCount (state (run w events)) = selectedCount (state w).
Proof. intros Hmet Hnav. by apply run_navigation_met. Qed.


End Navigation.

(** ** Editing a whole page *)

Section PageEdits.

Implicit Types (s : State) (w : World) (keep : Z → bool).

(** What the [forEach] over the page leaves in the two sets: a visible id
    goes where [keep] says, any other id stays where it was. *)
Lemma foldl_markRow_elem keep (rows : list ArtworkData) (acc : gset Z * gset Z) (j : Z) :
  (j ∈ (foldl (markRow keep) acc rows).1 ↔
     (j ∈ map id rows ∧ keep j = true) ∨ ((j ∉ map id rows) ∧ j ∈ acc.1))
  ∧ (j ∈ (foldl (markRow keep) acc rows).2 ↔
       (j ∈ map id rows ∧ keep j = false) ∨ ((j ∉ map id rows) ∧ j ∈ acc.2)).
Proof.
  revert acc. induction rows as [|r rows IH]; intros acc.
  { simpl. split; (split; [intros ?; right; split; [apply not_elem_of_nil|done]
                          |intros [[[]%elem_of_nil _]|[_ ?]]; done]). }
  simpl. destruct (IH (markRow keep acc r)) as [IH1 IH2]. rewrite IH1, IH2.
  clear IH IH1 IH2. rewrite !elem_of_cons.
  assert ((markRow keep acc r).1 = if keep (id r) then {[id r]} ∪ acc.1
                                   else acc.1 ∖ {[id r]}) as ->
    by (unfold markRow; by destruct (keep (id r))).
  assert ((markRow keep acc r).2 = if keep (id r) then acc.2 ∖ {[id r]}
                                   else {[id r]} ∪ acc.2) as ->
    by (unfold markRow; by destruct (keep (id r))).
  destruct (decide (j = id r)) as [->|Hne]; destruct (keep (id r)) eqn:Hk;
    rewrite ?elem_of_union, ?elem_of_difference, ?elem_of_singleton.
  1,2: destruct (decide (id r ∈ map id rows)); naive_solver.
  all: destruct (decide (j ∈ map id rows)); naive_solver.
Qed.

Lemma markPage_elem keep s (j : Z) :
  (j ∈ selectedItems (markPage keep s) ↔
     (j ∈ currentPageItemIds s ∧ keep j = true)
     ∨ ((j ∉ currentPageItemIds s) ∧ j ∈ selectedItems s))
  ∧ (j ∈ unselectedItems (markPage keep s) ↔
       (j ∈ currentPageItemIds s ∧ keep j = false)
       ∨ ((j ∉ currentPageItemIds s) ∧ j ∈ unselectedItems s)).
Proof.
  pose proof (foldl_markRow_elem keep (artworks s)
                (selectedItems s, unselectedItems s) j) as H.
  unfold markPage, currentPageItemIds. by destruct (foldl _ _ _).
Qed.



Lemma filter_none {A} (P : A → Prop) `{!∀ x, Decision (P x)} (l : list A) :
  (∀ x, x ∈ l → ¬ P x) → filter P l = [].
Proof.
  induction l as [|a l IH]; intros Hall; [done|].
  rewrite filter_cons, decide_False by (apply Hall; by left).
  apply IH. intros x Hx. apply Hall. by right.
Qed.

Lemma elem_of_map_id (rows : list ArtworkData) (a : ArtworkData) :
  a ∈ rows → id a ∈ map id rows.
Proof.
  intros Ha. apply list_elem_of_In, in_map. by apply list_elem_of_In.
Qed.


End PageEdits.

(** ** Decisions on single rows *)

Section Decisions.

Implicit Types (s : State) (w : World) (e : Event).

Lemma State_eq s1 s2 :
  artworks s1 = artworks s2 → isLoading s1 = isLoading s2 →
  currentPage s1 = currentPage s2 → selectedCount s1 = selectedCount s2 →
  selectedItems s1 = selectedItems s2 → unselectedItems s1 = unselectedItems s2 →
  totalItems s1 = totalItems s2 → itemsCache s1 = itemsCache s2 →
  s1 = s2.
Proof. destruct s1, s2. simpl. by intros -> -> -> -> -> -> -> ->. Qed.


(** X10. Only a bulk target or "Reset All" can make a decided id undecided
    again: after any other event, an id that was selected or excluded is
    still selected or excluded. *)
Theorem decisions_are_kept w e (j : Z) :
  clearsSelection e = false →
  j ∈ selectedItems (state w) ∪ unselectedItems (state w) →
  j ∈ selectedItems (state (step w e)) ∪ unselectedItems (state (step w e)).
Proof.
  intros He Hj. apply elem_of_union in Hj. apply elem_of_union.
  destruct (isNavigation e) eqn:Hnav.
  { destruct (step_navigation w e Hnav) as [->|(s1 & -> & Hs & Hu & _)]; [done|].
    destruct (runAutoSelect_frame s1) as (_ & _ & _ & ->).
    rewrite Hu. destruct Hj as [Hj|Hj]; [left|by right].
    apply runAutoSelect_subseteq. by rewrite Hs. }
  assert (isManualEdit e = true) as Hm by (by destruct e).
  rewrite step_manual by done. simpl.
  destruct e as [page|a|a|value|checked|value| |k reply|k]; try discriminate; simpl.
  - destruct (decide (j = id a)) as [->|]; set_solver.
  - destruct (decide (j = id a)) as [->|]; set_solver.
  - unfold handleSelectionChange.
    destruct (markPage_elem (λ i, bool_decide (i ∈ (list_to_set (map id value) : gset Z)))
                (state w) j) as [-> ->].
    destruct (decide (j ∈ currentPageItemIds (state w)));
      destruct (bool_decide (j ∈ (list_to_set (map id value) : gset Z))); tauto.
  - unfold headerCheckboxOnChange.
    destruct (markPage_elem (λ _, checked) (state w) j) as [-> ->].
    destruct (decide (j ∈ currentPageItemIds (state w))); destruct checked; tauto.
Qed.

End Decisions.

(** ** Bulk target and reset *)

Section Clearing.

Implicit Types (s : State) (w : World).



End Clearing.

(** ** The page loader *)

Section Loader.

Implicit Types (s : State) (w : World) (e : Event) (rows : list ArtworkData).

Lemma run_ind (P : World → Prop) :
  P mounted → (∀ w e, P w → P (step w e)) → ∀ events, P (run mounted events).
Proof.
  intros H0 Hstep events. revert H0. generalize mounted.
  induction events as [|e events IH]; intros w Hw; [done|].
  simpl. by apply IH, Hstep.
Qed.

(** The effect leaves the loader's cells alone and commutes with writes
    to cells it does not read. *)
Lemma runAutoSelect_loader_cells s :
  isLoading (runAutoSelect s) = isLoading s
  ∧ itemsCache (runAutoSelect s) = itemsCache s
  ∧ totalItems (runAutoSelect s) = totalItems s.
Proof. unfold runAutoSelect. by destruct (autoSelectEffect s). Qed.

Lemma runAutoSelect_setIsLoading (b : bool) s :
  runAutoSelect (setIsLoading b s) = setIsLoading b (runAutoSelect s).
Proof.
  unfold runAutoSelect.
  rewrite (autoSelectEffect_deps (setIsLoading b s) s) by done.
  by destruct (autoSelectEffect s).
Qed.

Lemma runAutoSelect_setCurrentPage (p : Z) s :
  runAutoSelect (setCurrentPage p s) = setCurrentPage p (runAutoSelect s).
Proof.
  unfold runAutoSelect.
  rewrite (autoSelectEffect_deps (setCurrentPage p s) s) by done.
  by destruct (autoSelectEffect s).
Qed.

Lemma handle_loader_cells e s :
  artworks (handle e s) = artworks s
  ∧ itemsCache (handle e s) = itemsCache s
  ∧ isLoading (handle e s) = isLoading s.
Proof.
  assert (∀ keep, artworks (markPage keep s) = artworks s
                  ∧ itemsCache (markPage keep s) = itemsCache s
                  ∧ isLoading (markPage keep s) = isLoading s) as Hmark
    by (intros keep; unfold markPage; by destruct (foldl _ _ _)).
  destruct e; simpl; try done; apply Hmark.
Qed.

(** Every event keeps the rows and the cache, or replaces the rows by
    those of a reply and adds them to the cache. *)
Lemma step_rows w e :
  (artworks (state (step w e)) = artworks (state w)
   ∧ itemsCache (state (step w e)) = itemsCache (state w))
  ∨ (∃ reply,
       artworks (state (step w e)) = map processArtwork (data reply)
       ∧ itemsCache (state (step w e))
         = foldl (λ m item, <[id item := item]> m) (itemsCache (state w))
             (map processArtwork (data reply))).
Proof.
  assert (∀ prev s fetches,
            artworks (state (commit prev s fetches)) = artworks s
            ∧ itemsCache (state (commit prev s fetches)) = itemsCache s) as Hcommit.
  { intros prev s fetches. unfold commit. case_match; simpl.
    - destruct (runAutoSelect_frame s) as (-> & _).
      by destruct (runAutoSelect_loader_cells s) as (_ & -> & _).
    - destruct (runAutoSelect_frame (loadArtworks_begin s)) as (-> & _).
      by destruct (runAutoSelect_loader_cells (loadArtworks_begin s)) as (_ & -> & _). }
  assert (∀ e', step w e = commit (state w) (handle e' (state w)) (inFlight w) →
                artworks (state (step w e)) = artworks (state w)
                ∧ itemsCache (state (step w e)) = itemsCache (state w)) as Hhandle.
  { intros e' ->. destruct (Hcommit (state w) (handle e' (state w)) (inFlight w))
      as [-> ->]. by destruct (handle_loader_cells e' (state w)) as (-> & -> & _). }
  destruct e as [page|a|a|value|checked|value| |k reply|k].
  - left. by apply (Hhandle (PageChange page)).
  - left. by apply (Hhandle (RowSelect a)).
  - left. by apply (Hhandle (RowUnselect a)).
  - left. by apply (Hhandle (SelectionChange value)).
  - left. by apply (Hhandle (HeaderCheckbox checked)).
  - left. by apply (Hhandle (SubmitSelection value)).
  - left. by apply (Hhandle ResetSelections).
  - simpl. destruct (inFlight w !! k); [|by left]. right. exists reply. simpl.
    destruct (runAutoSelect_frame (loadArtworks_resolve reply (state w))) as (-> & _).
    by destruct (runAutoSelect_loader_cells (loadArtworks_resolve reply (state w)))
      as (_ & -> & _).
  - simpl. destruct (inFlight w !! k); [|by left]. left. simpl.
    destruct (runAutoSelect_frame (loadArtworks_reject (state w))) as (-> & _).
    by destruct (runAutoSelect_loader_cells (loadArtworks_reject (state w)))
      as (_ & -> & _).
Qed.

Lemma cache_fold_keys rows (m : gmap Z ArtworkData) :
  (∀ k a, m !! k = Some a → id a = k) →
  ∀ k a, foldl (λ m item, <[id item := item]> m) m rows !! k = Some a → id a = k.
Proof.
  induction rows as [|r rows IH] using rev_ind; intros Hm k a; [apply Hm|].
  rewrite foldl_snoc. destruct (decide (id r = k)) as [<-|Hne].
  - rewrite lookup_insert_eq. by intros [= <-].
  - rewrite lookup_insert_ne by done. by apply IH.
Qed.

Lemma cache_fold_rows rows (m : gmap Z ArtworkData) (a : ArtworkData) :
  NoDup (map id rows) → a ∈ rows →
  foldl (λ m item, <[id item := item]> m) m rows !! id a = Some a.
Proof.
  induction rows as [|r rows IH] using rev_ind; intros Hnd Ha.
  { by apply elem_of_nil in Ha. }
  rewrite foldl_snoc. rewrite map_app in Hnd. simpl in Hnd.
  apply NoDup_app in Hnd as (Hnd & Hr & _).
  apply elem_of_app in Ha as [Ha|Ha%list_elem_of_singleton].
  - rewrite lookup_insert_ne; [by apply IH|].
    intros Heq. apply (Hr (id a)); [by apply elem_of_map_id|].
    rewrite Heq. by left.
  - subst a. by rewrite lookup_insert_eq.
Qed.

Lemma cache_fold_keeps rows (m : gmap Z ArtworkData) (k : Z) :
  is_Some (m !! k) →
  is_Some (foldl (λ m item, <[id item := item]> m) m rows !! k).
Proof.
  induction rows as [|r rows IH] using rev_ind; intros Hk; [done|].
  rewrite foldl_snoc. destruct (decide (id r = k)) as [<-|Hne].
  - rewrite lookup_insert_eq. by eexists.
  - rewrite lookup_insert_ne by done. by apply IH.
Qed.

(** X13. The cache of rows is keyed by id and never loses an entry; in
    every state the component reaches, if the page shows no id twice,
    looking a visible row up in the cache by its id gives that row. *)
Theorem visible_rows_are_cached (events : list Event) :
  let w := run mounted events in
  (∀ k a, itemsCache (state w) !! k = Some a → id a = k)
  ∧ (NoDup (currentPageItemIds (state w)) →
     ∀ a, a ∈ artworks (state w) → itemsCache (state w) !! id a = Some a)
  ∧ (∀ e k, is_Some (itemsCache (state w) !! k) →
            is_Some (itemsCache (state (step w e)) !! k)).
Proof.
  intros w. subst w. split_and!.
  - apply (run_ind (λ w, ∀ k a, itemsCache (state w) !! k = Some a → id a = k)).
    + intros k a. vm_compute. discriminate.
    + intros w e IH. destruct (step_rows w e) as [[_ ->]|(reply & _ & ->)]; [done|].
      by apply cache_fold_keys.
  - apply (run_ind (λ w, NoDup (currentPageItemIds (state w)) →
       ∀ a, a ∈ artworks (state w) → itemsCache (state w) !! id a = Some a)).
    + intros _ a Ha. vm_compute in Ha. by apply elem_of_nil in Ha.
    + intros w e IH. unfold currentPageItemIds in *.
      destruct (step_rows w e) as [[-> ->]|(reply & -> & ->)]; [done|].
      intros Hnd a Ha. by apply cache_fold_rows.
  - intros e k Hk.
    destruct (step_rows (run mounted events) e) as [[_ ->]|(reply & _ & ->)]; [done|].
    by apply cache_fold_keeps.
Qed.

Lemma or_default_nonempty (o : option string) (d : string) :
  d ≠ "" → Js.or_default o d ≠ "".
Proof. intros Hd. by destruct o as [[|c v]|]. Qed.

(** X14. Every row the table ever shows has a title and an artist that are
    not empty: a missing or empty field of the reply is replaced by
    "Untitled" or "Unknown Artist" before the row enters the state. *)
Theorem shown_rows_have_title_and_artist (events : list Event) (a : ArtworkData) :
  a ∈ artworks (state (run mounted events)) →
  title a ≠ "" ∧ artist_display a ≠ "".
Proof.
  revert a.
  apply (run_ind (λ w, ∀ a, a ∈ artworks (state w) →
                            title a ≠ "" ∧ artist_display a ≠ "")).
  - intros a Ha. vm_compute in Ha. by apply elem_of_nil in Ha.
  - intros w e IH a.
    destruct (step_rows w e) as [[-> _]|(reply & -> & _)]; [apply IH|].
    intros Ha%list_elem_of_In. apply in_map_iff in Ha as (raw & <- & _).
    split; by apply or_default_nonempty.
Qed.

Lemma step_loading w e :
  (inFlight w = [] → isLoading (state w) = false) →
  inFlight (step w e) = [] → isLoading (state (step w e)) = false.
Proof.
  intros IH.
  assert (∀ e', step w e = commit (state w) (handle e' (state w)) (inFlight w) →
                inFlight (step w e) = [] → isLoading (state (step w e)) = false)
    as Hhandle.
  { intros e' ->. unfold commit. case_match; simpl.
    - intros Hfl. destruct (runAutoSelect_loader_cells (handle e' (state w))) as (-> & _).
      destruct (handle_loader_cells e' (state w)) as (_ & _ & ->). by apply IH.
    - by intros ?%app_nil_r_inv%(f_equal length). }
  destruct e as [page|a|a|value|checked|value| |k reply|k].
  - by apply (Hhandle (PageChange page)).
  - by apply (Hhandle (RowSelect a)).
  - by apply (Hhandle (RowUnselect a)).
  - by apply (Hhandle (SelectionChange value)).
  - by apply (Hhandle (HeaderCheckbox checked)).
  - by apply (Hhandle (SubmitSelection value)).
  - by apply (Hhandle ResetSelections).
  - simpl. destruct (inFlight w !! k); [|done]. simpl. intros _.
    by destruct (runAutoSelect_loader_cells (loadArtworks_resolve reply (state w)))
      as (-> & _).
  - simpl. destruct (inFlight w !! k); [|done]. simpl. intros _.
    by destruct (runAutoSelect_loader_cells (loadArtworks_reject (state w)))
      as (-> & _).
Qed.

(** X15. The table is never shown as loading when no fetch is
    outstanding. On the other hand the completion of any fetch, resolved
    or failed, turns the loading flag off, also when other fetches are
    still outstanding. *)
Theorem not_loading_when_idle (events : list Event) :
  let w := run mounted events in
  (inFlight w = [] → isLoading (state w) = false)
  ∧ (∀ k reply, is_Some (inFlight w !! k) →
       isLoading (state (step w (FetchResolved k reply))) = false
       ∧ isLoading (state (step w (FetchRejected k))) = false
       ∧ inFlight (step w (FetchResolved k reply)) = delete k (inFlight w)
       ∧ inFlight (step w (FetchRejected k)) = delete k (inFlight w)).
Proof.
  intros w. subst w. split.
  - apply (run_ind (λ w, inFlight w = [] → isLoading (state w) = false)).
    + intros H. vm_compute in H. discriminate.
    + intros w e. apply step_loading.
  - intros k reply [p Hp]. simpl. rewrite Hp. simpl.
    destruct (runAutoSelect_loader_cells
                (loadArtworks_resolve reply (state (run mounted events)))) as (-> & _).
    destruct (runAutoSelect_loader_cells
                (loadArtworks_reject (state (run mounted events)))) as (-> & _).
    done.
Qed.

(** X16. A fetch that fails changes nothing but the loading flag: the
    rows on screen, both sets, the target, the current page, the total
    and the cache are those from before, and the fetch is no longer
    outstanding. *)
Theorem failed_fetch_keeps_page_and_selection (events : list Event) (k : nat) :
  let w := run mounted events in
  is_Some (inFlight w !! k) →
  step w (FetchRejected k)
    = {| state := setIsLoading false (state w); inFlight := delete k (inFlight w) |}.
Proof.
  intros w [p Hp]. subst w. simpl. rewrite Hp. f_equal.
  unfold loadArtworks_reject. by rewrite runAutoSelect_setIsLoading, run_at_rest.
Qed.

(** X17. A page event for the page that is current changes nothing and
    requests nothing. A page event for another page makes it current and
    starts exactly one fetch, for that page, after those outstanding; the
    rows on screen and the selection stay as they are until a reply
    arrives. Either way the table's [first] is the event's page index
    times the page size, index 0 when the event carries none. *)
Theorem page_change_requests_new_page_once (events : list Event) (page : option Z) :
  let w := run mounted events in
  let newPage := default 0 page + 1 in
  step w (PageChange page)
    = (if newPage =? currentPage (state w) then w
       else {| state := setIsLoading true (setCurrentPage newPage (state w));
               inFlight := inFlight w ++ [newPage] |})
  ∧ first (state (step w (PageChange page))) = default 0 page * ITEMS_PER_PAGE.
Proof.
  intros w newPage.
  assert (currentPage (state (step w (PageChange page))) = newPage) as Hpage.
  { change (step w (PageChange page))
      with (commit (state w) (setCurrentPage newPage (state w)) (inFlight w)).
    unfold commit. case_match; simpl;
      by rewrite (proj1 (proj2 (runAutoSelect_frame _))). }
  split; [|unfold first; rewrite Hpage; subst newPage; lia].
  change (step w (PageChange page))
    with (commit (state w) (setCurrentPage newPage (state w)) (inFlight w)).
  unfold commit. change (currentPage (setCurrentPage newPage (state w))) with newPage.
  destruct (Z.eqb_spec newPage (currentPage (state w))) as [Heq|Hne].
  - rewrite runAutoSelect_setCurrentPage. subst w. rewrite run_at_rest.
    destruct (run mounted events) as [s fl]. simpl in *. f_equal.
    apply State_eq; simpl; done.
  - f_equal. unfold loadArtworks_begin.
    rewrite runAutoSelect_setIsLoading, runAutoSelect_setCurrentPage.
    subst w. by rewrite run_at_rest.
Qed.

End Loader.

(** ** Instances of the further statements *)

Section MoreInstances.

Lemma auto_select_takes_first_undecided_witness :
  selectedCount beforeFill = Js.Num 5
  ∧ sizeZ (selectedItems beforeFill) < 5
  ∧ NoDup (currentPageItemIds beforeFill)
  ∧ sizeZ (selectedItems (runAutoSelect beforeFill))
    = Z.min 5 (sizeZ (selectedItems beforeFill)
               + Z.of_nat (length (undecidedOnPage beforeFill))).
Proof.
  split; [reflexivity|]. split; [by_eval|]. split; [by_eval|].
  apply (auto_select_takes_first_undecided beforeFill 5); [reflexivity|by_eval|by_eval].
Defined.

Lemma navigation_keeps_decisions_witness :
  isNavigation (FetchResolved 0 (pageFrom 13)) = true
  ∧ unselectedItems (state (step mounted (FetchResolved 0 (pageFrom 13))))
    = unselectedItems (state mounted).
Proof.
  split; [reflexivity|].
  apply (navigation_keeps_decisions mounted (FetchResolved 0 (pageFrom 13))).
  reflexivity.
Defined.


Lemma met_target_navigation_inert_witness :
  targetMet (state fiveOfPage1)
  ∧ forallb isNavigation toPage2 = true
  ∧ selectedItems (state (run fiveOfPage1 toPage2)) = selectedItems (state fiveOfPage1).
Proof.
  assert (targetMet (state fiveOfPage1)) as H by (vm_compute; discriminate).
  split; [exact H|]. split; [reflexivity|].
  apply (met_target_navigation_inert fiveOfPage1 toPage2 H). reflexivity.
Defined.


Lemma decisions_are_kept_witness :
  clearsSelection (RowUnselect (row 3)) = false
  ∧ 3 ∈ selectedItems (state fiveOfPage1) ∪ unselectedItems (state fiveOfPage1)
  ∧ 3 ∈ selectedItems (state (step fiveOfPage1 (RowUnselect (row 3))))
        ∪ unselectedItems (state (step fiveOfPage1 (RowUnselect (row 3)))).
Proof.
  split; [reflexivity|]. split; [by_eval|].
  apply (decisions_are_kept fiveOfPage1 (RowUnselect (row 3)) 3); [reflexivity|by_eval].
Defined.



Lemma visible_rows_are_cached_witness :
  NoDup (currentPageItemIds (state onPage2))
  ∧ row 13 ∈ artworks (state onPage2)
  ∧ itemsCache (state onPage2) !! id (row 13) = Some (row 13).
Proof.
  assert (NoDup (currentPageItemIds (state onPage2))) as Hnd by by_eval.
  assert (row 13 ∈ artworks (state onPage2)) as Hin
    by (apply list_elem_of_In; vm_compute; left; reflexivity).
  split; [exact Hnd|]. split; [exact Hin|].
  exact (proj1 (proj2 (visible_rows_are_cached (FetchResolved 0 (pageFrom 1) :: toPage2)))
           Hnd (row 13) Hin).
Defined.

Lemma shown_rows_have_title_and_artist_witness :
  row 13 ∈ artworks (state onPage2)
  ∧ title (row 13) ≠ "" ∧ artist_display (row 13) ≠ "".
Proof.
  assert (row 13 ∈ artworks (state onPage2)) as Hin
    by (apply list_elem_of_In; vm_compute; left; reflexivity).
  split; [exact Hin|].
  exact (shown_rows_have_title_and_artist (FetchResolved 0 (pageFrom 1) :: toPage2)
           (row 13) Hin).
Defined.

Lemma not_loading_when_idle_witness :
  inFlight onPage2 = []
  ∧ isLoading (state onPage2) = false
  ∧ is_Some (inFlight (run mounted [PageChange (Some 1)]) !! 0%nat)
  ∧ isLoading (state (step (run mounted [PageChange (Some 1)])
                        (FetchResolved 0 (pageFrom 1)))) = false
  ∧ inFlight (step (run mounted [PageChange (Some 1)])
                (FetchResolved 0 (pageFrom 1))) = [2].
Proof.
  assert (is_Some (inFlight (run mounted [PageChange (Some 1)]) !! 0%nat)) as H
    by (exists 1; reflexivity).
  split; [reflexivity|].
  split; [exact (proj1 (not_loading_when_idle (FetchResolved 0 (pageFrom 1) :: toPage2))
                   eq_refl)|].
  split; [exact H|].
  split; [exact (proj1 (proj2 (not_loading_when_idle [PageChange (Some 1)])
                          0%nat (pageFrom 1) H))|reflexivity].
Defined.

Lemma failed_fetch_keeps_page_and_selection_witness :
  is_Some (inFlight (run mounted [FetchResolved 0 (pageFrom 1); PageChange (Some 1)])
             !! 0%nat)
  ∧ artworks (state (step (run mounted [FetchResolved 0 (pageFrom 1); PageChange (Some 1)])
                       (FetchRejected 0)))
    = artworks (state (run mounted [FetchResolved 0 (pageFrom 1); PageChange (Some 1)])).
Proof.
  assert (is_Some (inFlight (run mounted [FetchResolved 0 (pageFrom 1);
                                          PageChange (Some 1)]) !! 0%nat)) as H
    by (exists 2; reflexivity).
  split; [exact H|].
  rewrite (failed_fetch_keeps_page_and_selection
             [FetchResolved 0 (pageFrom 1); PageChange (Some 1)] 0 H).
  reflexivity.
Defined.

End MoreInstances.

(** ** Further properties of the effect, the loader and the table *)

Section Further.

Implicit Types (s : State) (w : World) (e : Event).

Lemma autoSelectEffect_None_met s : autoSelectEffect s = None → targetMet s.
Proof.
  unfold autoSelectEffect, targetMet.
  destruct (selectedCount s) as [|z]; [done|]. simpl.
  destruct (Z.eqb_spec z 0) as [->|_]; simpl; [intros _; unfold sizeZ; lia|].
  destruct (Z.leb_spec z (sizeZ (selectedItems s))); [done|discriminate].
Qed.

(** X18. The effect does not stop early: after one run either the target
    is met (or there is none), or no undecided id is left on the page. A
    second run on the same state changes nothing. *)
Theorem auto_select_fills_or_exhausts s :
  (targetMet (runAutoSelect s) ∨ undecidedOnPage (runAutoSelect s) = [])
  ∧ runAutoSelect (runAutoSelect s) = runAutoSelect s.
Proof.
  split; [|apply runAutoSelect_stable].
  destruct (autoSelectEffect s) as [X|] eqn:He.
  2:{ left. unfold runAutoSelect. rewrite He. by apply autoSelectEffect_None_met. }
  assert (runAutoSelect s = setSelectedItems X s) as ->
    by (unfold runAutoSelect; by rewrite He).
  unfold autoSelectEffect in He.
  destruct (negb (Js.truthy (selectedCount s))); [done|].
  destruct (Js.ge (sizeZ (selectedItems s)) (selectedCount s)); [done|].
  injection He as He.
  destruct (Js.ge (sizeZ X) (selectedCount s)) eqn:Hge.
  - left. unfold targetMet. simpl. destruct (selectedCount s); [done|].
    simpl in Hge. by apply Z.leb_le.
  - right. unfold undecidedOnPage, currentPageItemIds. simpl.
    apply filter_none. intros i Hi [Hsel Hunsel].
    rewrite <- He in Hge.
    destruct (autoSelectLoop_exhausted _ _ _ _ _ eq_refl Hge i Hi) as [H|H];
      [|done].
    apply Hsel. by rewrite <- He.
Qed.

Lemma handle_totalItems e s : totalItems (handle e s) = totalItems s.
Proof.
  destruct e; simpl; try done; unfold handleSelectionChange, headerCheckboxOnChange,
    markPage; by destruct (foldl _ _ _).
Qed.

Lemma step_totalItems w e :
  totalItems (state w) ≠ 0 → totalItems (state (step w e)) ≠ 0.
Proof.
  intros Hw.
  assert (∀ e', step w e = commit (state w) (handle e' (state w)) (inFlight w) →
                totalItems (state (step w e)) ≠ 0) as Hhandle.
  { intros e' ->. unfold commit. case_match; simpl;
      rewrite (proj2 (proj2 (runAutoSelect_loader_cells _))); simpl;
      by rewrite handle_totalItems. }
  destruct e as [page|a|a|value|checked|value| |k reply|k].
  - by apply (Hhandle (PageChange page)).
  - by apply (Hhandle (RowSelect a)).
  - by apply (Hhandle (RowUnselect a)).
  - by apply (Hhandle (SelectionChange value)).
  - by apply (Hhandle (HeaderCheckbox checked)).
  - by apply (Hhandle (SubmitSelection value)).
  - by apply (Hhandle ResetSelections).
  - simpl. destruct (inFlight w !! k); [|done]. simpl.
    rewrite (proj2 (proj2 (runAutoSelect_loader_cells _))). simpl.
    destruct (pagination_total reply) as [t|]; [|done].
    by destruct (Z.eqb_spec t 0).
  - simpl. destruct (inFlight w !! k); [|done]. simpl.
    by rewrite (proj2 (proj2 (runAutoSelect_loader_cells _))).
Qed.

(** X19. The total handed to the paginator is never zero: it starts at
    1000 and a reply changes it only to a total that is present and not
    zero; a reply without total, or with total zero, leaves it as it was. *)
Theorem paginator_total_never_zero (events : list Event) :
  let w := run mounted events in
  totalItems (state w) ≠ 0
  ∧ (∀ k reply, is_Some (inFlight w !! k) →
       totalItems (state (step w (FetchResolved k reply)))
       = match pagination_total reply with
         | Some total => if total =? 0 then totalItems (state w) else total
         | None => totalItems (state w)
         end).
Proof.
  intros w. subst w. split.
  - apply (run_ind (λ w, totalItems (state w) ≠ 0)); [by vm_compute|].
    intros w e. apply step_totalItems.
  - intros k reply [p Hp]. simpl. rewrite Hp. simpl.
    by rewrite (proj2 (proj2 (runAutoSelect_loader_cells _))).
Qed.

Lemma filter_reported_rows (value rows : list ArtworkData) :
  NoDup (map id rows) → value `sublist_of` rows →
  filter (λ a, id a ∈ map id value) rows = value.
Proof.
  intros Hnd Hsub. induction Hsub as [|x v l Hsub IH|x v l Hsub IH].
  - done.
  - simpl in Hnd. apply NoDup_cons in Hnd as [Hx Hnd].
    rewrite filter_cons, decide_True by (simpl; by left). f_equal.
    trans (filter (λ a, id a ∈ map id v) l); [|by apply IH].
    apply filter_iff_on. intros a Ha. simpl.
    rewrite elem_of_cons. split; [|by right].
    intros [Heq|?]; [|done]. destruct Hx. rewrite <- Heq. by apply elem_of_map_id.
  - simpl in Hnd. apply NoDup_cons in Hnd as [Hx Hnd].
    rewrite filter_cons, decide_False; [by apply IH|].
    intros Hin. apply Hx.
    apply list_elem_of_In, in_map_iff in Hin as (a & Heq & Ha).
    rewrite <- Heq. apply elem_of_map_id, list_elem_of_In.
    apply list_elem_of_In in Ha. apply list_elem_of_In.
    by apply (sublist_subseteq _ _ Hsub).
Qed.

(** X20. The table gets back the selection it reported: after a selection
    change, the rows handed to the table as selected are the visible rows
    whose id is in the reported selection; when the page shows no id twice
    and the reported rows are rows of the page in page order, they are
    exactly the reported rows, and the count shown is their number. *)
Theorem selection_change_round_trip w (e_value : list ArtworkData) :
  let s' := state (step w (SelectionChange e_value)) in
  getSelectedArtworks s'
    = filter (λ a, id a ∈ map id e_value) (artworks (state w))
  ∧ (NoDup (currentPageItemIds (state w)) →
     e_value `sublist_of` artworks (state w) →
     getSelectedArtworks s' = e_value
     ∧ selectedItemsShown s' = length e_value).
Proof.
  intros s'.
  assert (getSelectedArtworks s'
          = filter (λ a, id a ∈ map id e_value) (artworks (state w))) as Hget.
  { subst s'. rewrite (step_manual w (SelectionChange e_value)) by done. simpl.
    unfold getSelectedArtworks, handleSelectionChange.
    set (keep := λ i, bool_decide (i ∈ (list_to_set (map id e_value) : gset Z))).
    destruct (markPage_cells keep (state w)) as (_ & _ & ->).
    apply filter_iff_on. intros a Ha%elem_of_map_id.
    destruct (markPage_elem keep (state w) (id a)) as [-> ->].
    subst keep. simpl.
    rewrite bool_decide_eq_true, bool_decide_eq_false, elem_of_list_to_set.
    unfold currentPageItemIds. split; [intros [[[_ ?]|[? _]] _]; tauto|].
    intros Hin. split; [by left|]. intros [[_ ?]|[? _]]; tauto. }
  split; [done|]. intros Hnd Hsub.
  assert (getSelectedArtworks s' = e_value) as Hrt
    by (rewrite Hget; by apply filter_reported_rows).
  split; [done|]. unfold selectedItemsShown. by rewrite Hrt.
Qed.

Lemma selection_change_round_trip_witness :
  NoDup (currentPageItemIds (state noneOfThree))
  ∧ [row 1; row 3] `sublist_of` artworks (state noneOfThree)
  ∧ getSelectedArtworks (state (step noneOfThree (SelectionChange [row 1; row 3])))
    = [row 1; row 3].
Proof.
  assert (NoDup (currentPageItemIds (state noneOfThree))) as Hnd by by_eval.
  assert ([row 1; row 3] `sublist_of` artworks (state noneOfThree)) as Hsub
    by (vm_compute; repeat constructor).
  split; [exact Hnd|]. split; [exact Hsub|].
  exact (proj1 (proj2 (selection_change_round_trip noneOfThree [row 1; row 3]) Hnd Hsub)).
Defined.

Lemma paginator_total_never_zero_witness :
  is_Some (inFlight mounted !! 0%nat)
  ∧ totalItems (state (step mounted (FetchResolved 0 threeRows))) = 1000.
Proof.
  assert (is_Some (inFlight mounted !! 0%nat)) as H by (exists 1; reflexivity).
  split; [exact H|].
  exact (proj2 (paginator_total_never_zero []) 0%nat threeRows H).
Defined.

End Further.
